(** * Replication strategies of the Cortex ring
    (internal/cortex/ring/replication_strategy.go)

    Shallow embedding of [defaultReplicationStrategy.Filter] (quorum) and
    [ignoreUnhealthyInstancesReplicationStrategy.Filter] (best effort).

    - Go [int] is a 64-bit integer: modelled as [Z] with the wrap-around of
      [+] and [-] written out ([wrap64]); [/] truncates ([Z.quot]).
    - The [instances] slice is the caller's: the filtering loop removes
      unhealthy entries with [append(instances[:i], instances[i+1:]...)],
      which shifts the caller's backing array in place.  The backing array
      is modelled as a list; the slice as its length [n] (offset 0,
      capacity = length of the array).
    - [time.Now()] reads the wall clock of the world the call runs in.
    - [fmt.Errorf] without [%w] yields an error holding only its message. *)

From Stdlib Require Import List String Ascii ZArith Lia Bool.
Import ListNotations.
Open Scope Z_scope.

(** ** Go integers *)

Definition max_int : Z := 2 ^ 63 - 1.
Definition min_int : Z := - 2 ^ 63.
Definition in_int64 (z : Z) : Prop := min_int <= z <= max_int.

(** two's-complement wrap-around of a 64-bit [int] *)
Definition wrap64 (z : Z) : Z := (z + 2 ^ 63) mod 2 ^ 64 - 2 ^ 63.

(** ** Data model *)

Definition Time := Z.      (* nanoseconds *)
Definition Duration := Z.  (* nanoseconds *)

Inductive InstanceState := ACTIVE | LEAVING | PENDING | JOINING | LEFT.

Record InstanceDesc := mkInstanceDesc {
  Addr : string;
  Timestamp : Time;   (* last heartbeat *)
  State : InstanceState;
  Zone : string
}.

(** the error value built by [fmt.Errorf]: its only content is [Error()] *)
Record error := Errorf { Error : string }.

(** the world a call runs in: only its clock is read *)
Record world := mkWorld { wall_clock : Time }.

Definition time_Now (w : world) : Time := wall_clock w.

(** ** fmt / strings helpers *)

(** decimal digits of a non-negative integer, prepended to [acc] *)
Fixpoint digits (fuel : nat) (z : Z) (acc : string) : string :=
  match fuel with
  | O => acc
  | S f =>
      let acc' := String (ascii_of_nat (48 + Z.to_nat (z mod 10))) acc in
      if z <? 10 then acc' else digits f (z / 10) acc'
  end.

(** [%d] of a Go [int] *)
Definition itoa (z : Z) : string :=
  if z <? 0 then ("-" ++ digits 64 (- z) "")%string else digits 64 z "".

(** [strings.Join] *)
Fixpoint Join (elems : list string) (sep : string) : string :=
  match elems with
  | [] => ""
  | [x] => x
  | x :: xs => (x ++ sep ++ Join xs sep)%string
  end.

(** ** Slices over the caller's backing array *)

(** [instances = append(instances[:i], instances[i+1:]...)] on a slice of
    length [n] over [arr] (offset 0, capacity [length arr]): the capacity
    suffices, so [instances[i+1:n]] is copied onto positions [i .. n-2] of
    the same array; positions from [n-1] on are left as they were. *)
Definition remove_at (arr : list InstanceDesc) (i n : nat) : list InstanceDesc :=
  firstn i arr ++ firstn (n - S i) (skipn (S i) arr) ++ skipn (n - 1) arr.

(** [arr[i:n]] *)
Definition sub (i n : nat) (arr : list InstanceDesc) : list InstanceDesc :=
  firstn (n - i) (skipn i arr).

(** ** The strategies *)

Section Strategies.

(** [Operation] and [InstanceDesc.IsHealthy] are defined elsewhere in the
    ring package; both strategies are verified for every predicate. *)
Variable Operation : Type.
Variable IsHealthy : InstanceDesc -> Operation -> Duration -> Time -> bool.

(** the filtering loop shared by both strategies:
    [for i := 0; i < len(instances); { ... }], with state the backing
    array, the slice length [n], the index [i] and the [unhealthy] slice.
    Each iteration decreases [n - i], so [fuel = len(instances)] is enough. *)
Fixpoint filter_loop (op : Operation) (heartbeatTimeout : Duration) (now : Time)
    (fuel : nat) (arr : list InstanceDesc) (n i : nat) (unhealthy : list string)
    : list InstanceDesc * nat * list string :=
  match fuel with
  | O => (arr, n, unhealthy)
  | S f =>
      if Nat.ltb i n then
        match nth_error arr i with
        | Some inst =>
            if IsHealthy inst op heartbeatTimeout now
            then filter_loop op heartbeatTimeout now f arr n (S i) unhealthy
            else filter_loop op heartbeatTimeout now f (remove_at arr i n) (n - 1) i
                   (unhealthy ++ [Addr inst])
        | None => (arr, n, unhealthy)
        end
      else (arr, n, unhealthy)
  end.

(** what a call leaves behind: the caller's backing array after the call,
    and the three results [(healthy, maxFailures, err)] *)
Record Call := mkCall {
  backing : list InstanceDesc;
  healthy : list InstanceDesc;
  maxFailures : Z;
  err : option error
}.

(** [defaultReplicationStrategy.Filter] *)
Definition Filter_default (w : world) (instances : list InstanceDesc) (op : Operation)
    (replicationFactor : Z) (heartbeatTimeout : Duration) (zoneAwarenessEnabled : bool)
    : Call :=
  let now := time_Now w in
  let '(arr, n, unhealthy) :=
    filter_loop op heartbeatTimeout now (List.length instances) instances
      (List.length instances) 0 [] in
  let instances' := firstn n arr in
  let len := Z.of_nat (List.length instances') in
  let replicationFactor' := if len >? replicationFactor then len else replicationFactor in
  let minSuccess := wrap64 (Z.quot replicationFactor' 2 + 1) in
  if len <? minSuccess then
    let unhealthyStr :=
      if Nat.ltb 0 (List.length unhealthy)
      then (" - unhealthy instances: " ++ Join unhealthy ",")%string
      else ""%string in
    let e :=
      if zoneAwarenessEnabled
      then Errorf ("at least " ++ itoa minSuccess
             ++ " live replicas required across different availability zones, could only find "
             ++ itoa len ++ unhealthyStr)
      else Errorf ("at least " ++ itoa minSuccess
             ++ " live replicas required, could only find "
             ++ itoa len ++ unhealthyStr) in
    mkCall arr [] 0 (Some e)
  else mkCall arr instances' (wrap64 (len - minSuccess)) None.

(** [ignoreUnhealthyInstancesReplicationStrategy.Filter] *)
Definition Filter_ignore (w : world) (instances : list InstanceDesc) (op : Operation)
    (_ : Z) (heartbeatTimeout : Duration) (_ : bool) : Call :=
  let now := time_Now w in
  let '(arr, n, unhealthy) :=
    filter_loop op heartbeatTimeout now (List.length instances) instances
      (List.length instances) 0 [] in
  let instances' := firstn n arr in
  if Nat.eqb (List.length instances') 0 then
    let unhealthyStr :=
      if Nat.ltb 0 (List.length unhealthy)
      then (" - unhealthy instances: " ++ Join unhealthy ",")%string
      else ""%string in
    mkCall arr [] 0
      (Some (Errorf ("at least 1 healthy replica required, could only find 0"
                     ++ unhealthyStr)))
  else mkCall arr instances' (wrap64 (Z.of_nat (List.length instances') - 1)) None.

End Strategies.

Arguments filter_loop {Operation} IsHealthy op heartbeatTimeout now fuel arr n i unhealthy.
Arguments Filter_default {Operation} IsHealthy w instances op replicationFactor
  heartbeatTimeout zoneAwarenessEnabled.
Arguments Filter_ignore {Operation} IsHealthy w instances op _ heartbeatTimeout _.

(** ** The health predicate *)

(** Modelled from the spec: [Operation] and [InstanceDesc.IsHealthy] of the
    ring package (not among the sources).  An operation kind carries the
    lifecycle states it accepts; an instance is healthy for it when its state
    is accepted and its last heartbeat is not older than the timeout
    ([now - lastHeartbeat > heartbeatTimeout] makes it unhealthy). *)
Record SpecOperation := mkOp { healthy_states : InstanceState -> bool }.

Definition spec_IsHealthy (i : InstanceDesc) (op : SpecOperation)
    (heartbeatTimeout : Duration) (now : Time) : bool :=
  healthy_states op (State i) && negb (now - Timestamp i >? heartbeatTimeout).

Definition WriteOp : SpecOperation :=
  mkOp (fun s => match s with ACTIVE => true | _ => false end).

(** * Proofs *)

(** ** Go integer arithmetic *)

Lemma wrap64_small (z : Z) : in_int64 z -> wrap64 z = z.
Proof.
  unfold in_int64, wrap64, min_int, max_int; intros H.
  rewrite Z.mod_small; lia.
Qed.

(** [minSuccess] of the quorum strategy, computed without wrap-around:
    [max(replicationFactor, len)/2 + 1] *)
Lemma minSuccess_eq (len rf : Z) :
  0 <= len <= max_int -> in_int64 rf ->
  wrap64 (Z.quot (if len >? rf then len else rf) 2 + 1) = Z.max rf len / 2 + 1.
Proof.
  unfold in_int64, max_int, min_int; intros Hl Hr.
  assert (Hq : Z.quot (if len >? rf then len else rf) 2 = Z.max rf len / 2).
  { destruct (Z.gtb_spec len rf).
    - rewrite Z.max_r by lia. apply Z.quot_div_nonneg; lia.
    - rewrite Z.max_l by lia. apply Z.quot_div_nonneg; lia. }
  rewrite Hq. apply wrap64_small. unfold in_int64, min_int, max_int.
  assert (0 <= Z.max rf len / 2 <= 2 ^ 62).
  { split; [apply Z.div_pos; lia|]. apply Z.div_le_upper_bound; lia. }
  lia.
Qed.

(** ** The in-place removal *)

Lemma skipn_prefix (l1 l2 : list InstanceDesc) : skipn (List.length l1) (l1 ++ l2) = l2.
Proof. rewrite skipn_app, skipn_all, Nat.sub_diag. reflexivity. Qed.

Lemma skipn_prefix_S (l1 l2 : list InstanceDesc) y :
  skipn (S (List.length l1)) (l1 ++ y :: l2) = l2.
Proof. rewrite skipn_app, skipn_all2 by lia. replace (S _ - _)%nat with 1%nat by lia. reflexivity. Qed.

Lemma firstn_S_snoc (arr : list InstanceDesc) (i : nat) (x : InstanceDesc) :
  nth_error arr i = Some x -> firstn (S i) arr = firstn i arr ++ [x].
Proof.
  intros Hx.
  destruct (nth_error_split arr i Hx) as (l1 & l2 & -> & Hl1). subst i.
  rewrite !firstn_app, firstn_all, (firstn_all2 (n := S _) l1) by lia.
  rewrite Nat.sub_diag. replace (S _ - _)%nat with 1%nat by lia.
  simpl. now rewrite app_nil_r.
Qed.

Section Slices.

Variable arr : list InstanceDesc.
Variables (i n : nat) (x : InstanceDesc).
Hypothesis Hin : (i < n)%nat.
Hypothesis Hn : (n <= List.length arr)%nat.
Hypothesis Hx : nth_error arr i = Some x.

Lemma sub_cons : sub i n arr = x :: sub (S i) n arr.
Proof.
  destruct (nth_error_split arr i Hx) as (l1 & l2 & -> & Hl1). subst i.
  unfold sub. rewrite skipn_prefix, skipn_prefix_S.
  replace (n - List.length l1)%nat with (S (n - S (List.length l1))) by lia.
  reflexivity.
Qed.

Lemma length_remove_at : List.length (remove_at arr i n) = List.length arr.
Proof.
  unfold remove_at. rewrite !length_app, !length_firstn, !length_skipn. lia.
Qed.

Lemma firstn_remove_at : firstn i (remove_at arr i n) = firstn i arr.
Proof.
  unfold remove_at. rewrite firstn_app, length_firstn.
  replace (i - Nat.min i (List.length arr))%nat with O by lia. simpl.
  rewrite app_nil_r, firstn_firstn. f_equal. lia.
Qed.

Lemma sub_remove_at : sub i (n - 1) (remove_at arr i n) = sub (S i) n arr.
Proof.
  unfold remove_at, sub.
  assert (HA : List.length (firstn i arr) = i) by (rewrite length_firstn; lia).
  rewrite skipn_app, skipn_all2, HA, Nat.sub_diag by lia. simpl.
  set (B := firstn (n - S i) (skipn (S i) arr)).
  assert (HB : List.length B = (n - 1 - i)%nat)
    by (unfold B; rewrite length_firstn, length_skipn; lia).
  rewrite <- HB, firstn_app, Nat.sub_diag, firstn_all. simpl.
  rewrite app_nil_r. unfold B. f_equal.
Qed.

End Slices.

(** ** The filtering loop *)

Section Loop.

Variable Operation : Type.
Variable IsHealthy : InstanceDesc -> Operation -> Duration -> Time -> bool.
Variables (op : Operation) (heartbeatTimeout : Duration) (now : Time).

Let h (inst : InstanceDesc) : bool := IsHealthy inst op heartbeatTimeout now.

(** loop invariant: the slice is the untouched prefix [arr[:i]] followed by
    the healthy part of [arr[i:n]]; [unhealthy] grows by the addresses of
    the rest; the backing array keeps its length. *)
Lemma filter_loop_spec (fuel : nat) : forall arr n i unhealthy,
  (i <= n)%nat -> (n <= List.length arr)%nat -> (n - i <= fuel)%nat ->
  let '(arr', n', unhealthy') :=
    filter_loop IsHealthy op heartbeatTimeout now fuel arr n i unhealthy in
  List.length arr' = List.length arr /\
  firstn n' arr' = firstn i arr ++ filter h (sub i n arr) /\
  unhealthy' = unhealthy ++ map Addr (filter (fun y => negb (h y)) (sub i n arr)).
Proof.
  induction fuel as [|f IH]; intros arr n i u Hi Hn Hf; simpl.
  - assert (n = i) by lia; subst.
    unfold sub; rewrite Nat.sub_diag; simpl; rewrite !app_nil_r; auto.
  - destruct (Nat.ltb_spec i n) as [Hlt|Hge].
    + destruct (nth_error arr i) as [x|] eqn:Hx.
      2:{ apply nth_error_None in Hx; lia. }
      rewrite (sub_cons arr i n x Hlt Hn Hx). simpl. unfold h.
      destruct (IsHealthy x op heartbeatTimeout now) eqn:Hh; simpl.
      * specialize (IH arr n (S i) u ltac:(lia) Hn ltac:(lia)).
        destruct (filter_loop _ _ _ _ _ _ _ _ _) as [[arr' n'] u'].
        destruct IH as (H1 & H2 & H3). repeat split; auto.
        rewrite H2, (firstn_S_snoc arr i x Hx), <- app_assoc. reflexivity.
      * specialize (IH (remove_at arr i n) (n - 1)%nat i (u ++ [Addr x])
                      ltac:(lia) ltac:(rewrite length_remove_at; lia) ltac:(lia)).
        destruct (filter_loop _ _ _ _ _ _ _ _ _) as [[arr' n'] u'].
        destruct IH as (H1 & H2 & H3).
        rewrite length_remove_at in H1 by lia.
        rewrite firstn_remove_at, sub_remove_at in H2 by lia.
        rewrite sub_remove_at in H3 by lia.
        repeat split; auto. rewrite H3, <- app_assoc. reflexivity.
    + assert (n = i) by lia; subst.
      unfold sub; rewrite Nat.sub_diag; simpl; rewrite !app_nil_r; auto.
Qed.

(** the loop as both strategies start it *)
Lemma filter_loop_run (instances : list InstanceDesc) arr' n' unhealthy' :
  filter_loop IsHealthy op heartbeatTimeout now (List.length instances) instances
    (List.length instances) 0 [] = (arr', n', unhealthy') ->
  List.length arr' = List.length instances /\
  firstn n' arr' = filter h instances /\
  unhealthy' = map Addr (filter (fun y => negb (h y)) instances).
Proof.
  intros E.
  pose proof (filter_loop_spec (List.length instances) instances
                (List.length instances) 0 [] ltac:(lia) ltac:(lia) ltac:(lia)) as H.
  rewrite E in H. unfold sub in H. rewrite Nat.sub_0_r, firstn_all in H.
  exact H.
Qed.

End Loop.

(** runs the filtering loop of a strategy in the goal and replaces its
    outcome by the healthy and unhealthy parts of the input *)
Ltac run_loop :=
  match goal with
  | |- context [filter_loop ?IH ?op ?t ?now ?f ?l ?n0 ?i ?u] =>
      let E := fresh "E" in
      destruct (filter_loop IH op t now f l n0 i u) as [[?arr ?n] ?unh] eqn:E;
      apply filter_loop_run in E;
      let Hlen := fresh "Hlen" in let Hpre := fresh "Hpre" in let Hun := fresh "Hun" in
      destruct E as (Hlen & Hpre & Hun);
      cbv beta iota zeta; rewrite ?Hpre, ?Hun
  end.

Lemma length_filter_le {A} (f : A -> bool) (l : list A) :
  (List.length (filter f l) <= List.length l)%nat.
Proof.
  induction l as [|a l IH]; simpl; [lia|]. destruct (f a); simpl; lia.
Qed.

Lemma filter_none_negb {A} (f : A -> bool) (l : list A) :
  filter f l = [] -> filter (fun y => negb (f y)) l = l.
Proof.
  induction l as [|a l IH]; simpl; auto.
  destruct (f a); simpl; [discriminate|]. intros E. now rewrite IH.
Qed.

Lemma append_cancel_l (p s1 s2 : string) : (p ++ s1)%string = (p ++ s2)%string -> s1 = s2.
Proof. induction p as [|c p IH]; simpl; auto. intros E. injection E. auto. Qed.

Lemma firstn_length_firstn {A} (n : nat) (l : list A) :
  firstn (List.length (firstn n l)) l = firstn n l.
Proof.
  rewrite length_firstn. destruct (Nat.le_ge_cases n (List.length l)).
  - now rewrite Nat.min_l.
  - rewrite Nat.min_r, firstn_all, firstn_all2 by lia. reflexivity.
Qed.

Section Cases.

Variable Operation : Type.
Variable IsHealthy : InstanceDesc -> Operation -> Duration -> Time -> bool.

(** the two outcomes of the quorum strategy *)
Lemma Filter_default_cases (w : world) (instances : list InstanceDesc) (op : Operation)
    (replicationFactor : Z) (heartbeatTimeout : Duration) (zoneAwarenessEnabled : bool) :
  in_int64 replicationFactor ->
  Z.of_nat (List.length instances) <= max_int ->
  let h := fun i => IsHealthy i op heartbeatTimeout (time_Now w) in
  let H := filter h instances in
  let unhealthy := map Addr (filter (fun i => negb (h i)) instances) in
  let len := Z.of_nat (List.length H) in
  let minSuccess := Z.max replicationFactor len / 2 + 1 in
  let unhealthyStr := if Nat.ltb 0 (List.length unhealthy)
    then (" - unhealthy instances: " ++ Join unhealthy ",")%string else ""%string in
  let c := Filter_default IsHealthy w instances op replicationFactor heartbeatTimeout
             zoneAwarenessEnabled in
  0 <= len <= max_int /\
  (len < minSuccess ->
     healthy c = [] /\ maxFailures c = 0 /\
     err c = Some (if zoneAwarenessEnabled
       then Errorf ("at least " ++ itoa minSuccess
         ++ " live replicas required across different availability zones, could only find "
         ++ itoa len ++ unhealthyStr)
       else Errorf ("at least " ++ itoa minSuccess
         ++ " live replicas required, could only find " ++ itoa len ++ unhealthyStr))) /\
  (minSuccess <= len ->
     healthy c = H /\ maxFailures c = len - minSuccess /\ err c = None).
Proof.
  intros Hrf Hl. cbv zeta. unfold Filter_default. run_loop.
  set (H := filter (fun i => IsHealthy i op heartbeatTimeout (time_Now w)) instances) in *.
  assert (HH : (List.length H <= List.length instances)%nat) by apply length_filter_le.
  rewrite minSuccess_eq; [| lia | exact Hrf].
  split; [lia|].
  destruct (Z.ltb_spec (Z.of_nat (List.length H)) (Z.max replicationFactor
             (Z.of_nat (List.length H)) / 2 + 1)); split; intros; try lia.
  - destruct zoneAwarenessEnabled; auto.
  - repeat split. apply wrap64_small.
    assert (0 <= Z.max replicationFactor (Z.of_nat (List.length H)) / 2)
      by (apply Z.div_pos; lia).
    unfold in_int64, min_int, max_int in *. lia.
Qed.

(** the two outcomes of the best-effort strategy *)
Lemma Filter_ignore_cases (w : world) (instances : list InstanceDesc) (op : Operation)
    (replicationFactor : Z) (heartbeatTimeout : Duration) (zoneAwarenessEnabled : bool) :
  Z.of_nat (List.length instances) <= max_int ->
  let h := fun i => IsHealthy i op heartbeatTimeout (time_Now w) in
  let H := filter h instances in
  let unhealthy := map Addr (filter (fun i => negb (h i)) instances) in
  let c := Filter_ignore IsHealthy w instances op replicationFactor heartbeatTimeout
             zoneAwarenessEnabled in
  (H = [] ->
     healthy c = [] /\ maxFailures c = 0 /\
     err c = Some (Errorf ("at least 1 healthy replica required, could only find 0"
       ++ (if Nat.ltb 0 (List.length unhealthy)
           then " - unhealthy instances: " ++ Join unhealthy "," else "")))) /\
  (H <> [] ->
     healthy c = H /\ maxFailures c = Z.of_nat (List.length H) - 1 /\ err c = None).
Proof.
  intros Hl. cbv zeta. unfold Filter_ignore. run_loop.
  set (H := filter (fun i => IsHealthy i op heartbeatTimeout (time_Now w)) instances) in *.
  assert (HH : (List.length H <= List.length instances)%nat) by apply length_filter_le.
  destruct H as [|x H'] eqn:EH; cbn [List.length Nat.eqb]; split; intros; try congruence.
  - auto.
  - repeat split. apply wrap64_small. unfold in_int64, min_int, max_int in *.
    cbn [List.length] in HH. lia.
Qed.

End Cases.

Section Claims.

Variable Operation : Type.
Variable IsHealthy : InstanceDesc -> Operation -> Duration -> Time -> bool.

(** C1: the quorum strategy takes [max(RF, len(H))] as effective factor and
    [minSuccess = effectiveFactor/2 + 1]; whenever [len(H) >= minSuccess] it
    returns the whole healthy subset [H], [maxFailures = len(H) - minSuccess]
    and no error. *)
Theorem quorum_success (w : world) (instances : list InstanceDesc) (op : Operation)
    (replicationFactor : Z) (heartbeatTimeout : Duration) (zoneAwarenessEnabled : bool) :
  in_int64 replicationFactor ->
  Z.of_nat (List.length instances) <= max_int ->
  let H := filter (fun i => IsHealthy i op heartbeatTimeout (time_Now w)) instances in
  let effectiveFactor := Z.max replicationFactor (Z.of_nat (List.length H)) in
  let minSuccess := effectiveFactor / 2 + 1 in
  Z.of_nat (List.length H) >= minSuccess ->
  let c := Filter_default IsHealthy w instances op replicationFactor heartbeatTimeout
             zoneAwarenessEnabled in
  healthy c = H /\ maxFailures c = Z.of_nat (List.length H) - minSuccess /\ err c = None.
Proof.
  intros Hrf Hl. cbv zeta. intros Hge. unfold Filter_default. run_loop.
  set (H := filter (fun i => IsHealthy i op heartbeatTimeout (time_Now w)) instances) in *.
  assert (HH : (List.length H <= List.length instances)%nat) by apply length_filter_le.
  rewrite minSuccess_eq; [| lia | exact Hrf].
  destruct (Z.ltb_spec (Z.of_nat (List.length H)) (Z.max replicationFactor
             (Z.of_nat (List.length H)) / 2 + 1)); [lia|].
  simpl. repeat split. apply wrap64_small.
  assert (0 <= Z.max replicationFactor (Z.of_nat (List.length H)) / 2) by (apply Z.div_pos; lia).
  unfold in_int64, min_int, max_int in *. lia.
Qed.

(** C2: when fewer than [minSuccess] instances are healthy, the quorum
    strategy returns an error with a nil instance list and [maxFailures = 0]:
    never a partial subset together with an error. *)
Theorem quorum_failure (w : world) (instances : list InstanceDesc) (op : Operation)
    (replicationFactor : Z) (heartbeatTimeout : Duration) (zoneAwarenessEnabled : bool) :
  in_int64 replicationFactor ->
  Z.of_nat (List.length instances) <= max_int ->
  let H := filter (fun i => IsHealthy i op heartbeatTimeout (time_Now w)) instances in
  let minSuccess := Z.max replicationFactor (Z.of_nat (List.length H)) / 2 + 1 in
  Z.of_nat (List.length H) < minSuccess ->
  let c := Filter_default IsHealthy w instances op replicationFactor heartbeatTimeout
             zoneAwarenessEnabled in
  err c <> None /\ healthy c = [] /\ maxFailures c = 0.
Proof.
  intros Hrf Hl. cbv zeta. intros Hlt.
  destruct (Filter_default_cases Operation IsHealthy w instances op replicationFactor
              heartbeatTimeout zoneAwarenessEnabled Hrf Hl) as (_ & Hfail & _).
  destruct (Hfail Hlt) as (-> & -> & ->). repeat split. discriminate.
Qed.

(** C3: the best-effort strategy fails exactly when no input instance is
    healthy, with an error naming the (then all unhealthy) input addresses;
    otherwise it returns all healthy instances and
    [maxFailures = len(healthy) - 1]. *)
Theorem ignore_fails_iff_none_healthy (w : world) (instances : list InstanceDesc)
    (op : Operation) (replicationFactor : Z) (heartbeatTimeout : Duration)
    (zoneAwarenessEnabled : bool) :
  Z.of_nat (List.length instances) <= max_int ->
  let H := filter (fun i => IsHealthy i op heartbeatTimeout (time_Now w)) instances in
  let c := Filter_ignore IsHealthy w instances op replicationFactor heartbeatTimeout
             zoneAwarenessEnabled in
  (err c <> None <-> H = []) /\
  (H = [] ->
     err c = Some (Errorf ("at least 1 healthy replica required, could only find 0"
       ++ (if Nat.ltb 0 (List.length instances)
           then " - unhealthy instances: " ++ Join (map Addr instances) "," else "")))) /\
  (H <> [] ->
     healthy c = H /\ maxFailures c = Z.of_nat (List.length H) - 1 /\ err c = None).
Proof.
  intros Hl. cbv zeta.
  destruct (Filter_ignore_cases Operation IsHealthy w instances op replicationFactor
              heartbeatTimeout zoneAwarenessEnabled Hl) as (Hnone & Hsome).
  set (H := filter (fun i => IsHealthy i op heartbeatTimeout (time_Now w)) instances) in *.
  assert (Hdec : H = [] \/ H <> []) by (destruct H; [left | right]; congruence).
  destruct Hdec as [E|E].
  - destruct (Hnone E) as (_ & _ & Herr). pose proof E as E'. unfold H in E'.
    rewrite (filter_none_negb _ _ E'), length_map in Herr.
    repeat split; intros; congruence.
  - destruct (Hsome E) as (H1 & H2 & H3). repeat split; intros; congruence.
Qed.

(** C4: for both strategies the returned subset is the subsequence of the
    input, in input order, of exactly the instances healthy at the one time
    [now] read for the call; on error the subset is nil. *)
Theorem healthy_is_filter (w : world) (instances : list InstanceDesc) (op : Operation)
    (replicationFactor : Z) (heartbeatTimeout : Duration) (zoneAwarenessEnabled : bool) :
  let now := time_Now w in
  let H := filter (fun i => IsHealthy i op heartbeatTimeout now) instances in
  forall c, c = Filter_default IsHealthy w instances op replicationFactor heartbeatTimeout
                  zoneAwarenessEnabled \/
            c = Filter_ignore IsHealthy w instances op replicationFactor heartbeatTimeout
                  zoneAwarenessEnabled ->
  (err c = None /\ healthy c = H) \/ (err c <> None /\ healthy c = []).
Proof.
  cbv zeta. intros c [-> | ->]; [unfold Filter_default | unfold Filter_ignore];
    run_loop;
    destruct (_ <? _) || destruct (Nat.eqb _ _); simpl;
    first [left; split; reflexivity | right; split; [discriminate | reflexivity]].
Qed.

(** C6: with a positive replication factor, a successful call of either
    strategy returns [0 <= maxFailures < len(healthy)]. *)
Theorem max_failures_bounds (w : world) (instances : list InstanceDesc) (op : Operation)
    (replicationFactor : Z) (heartbeatTimeout : Duration) (zoneAwarenessEnabled : bool) :
  0 < replicationFactor ->
  in_int64 replicationFactor ->
  Z.of_nat (List.length instances) <= max_int ->
  forall c, c = Filter_default IsHealthy w instances op replicationFactor heartbeatTimeout
                  zoneAwarenessEnabled \/
            c = Filter_ignore IsHealthy w instances op replicationFactor heartbeatTimeout
                  zoneAwarenessEnabled ->
  err c = None ->
  0 <= maxFailures c < Z.of_nat (List.length (healthy c)).
Proof.
  intros _ Hrf Hl c [Hc | Hc] Herr.
  - destruct (Filter_default_cases Operation IsHealthy w instances op replicationFactor
                heartbeatTimeout zoneAwarenessEnabled Hrf Hl) as (Hr & Hfail & Hok).
    cbv zeta in Hr, Hfail, Hok. rewrite <- Hc in Hfail, Hok.
    set (len := Z.of_nat (List.length (filter _ instances))) in *.
    assert (0 <= Z.max replicationFactor len / 2) by (apply Z.div_pos; lia).
    destruct (Z.lt_ge_cases len (Z.max replicationFactor len / 2 + 1)) as [Hlt|Hge].
    + destruct (Hfail Hlt) as (_ & _ & E). congruence.
    + destruct (Hok ltac:(lia)) as (-> & -> & _). fold len. lia.
  - destruct (Filter_ignore_cases Operation IsHealthy w instances op replicationFactor
                heartbeatTimeout zoneAwarenessEnabled Hl) as (Hnone & Hsome).
    cbv zeta in Hnone, Hsome. rewrite <- Hc in Hnone, Hsome.
    destruct (filter _ instances) as [|x H'] eqn:EH.
    + destruct (Hnone eq_refl) as (_ & _ & E). congruence.
    + destruct (Hsome ltac:(discriminate)) as (-> & -> & _).
      cbn [List.length]. lia.
Qed.

(** C7: a failing quorum call reports [minSuccess], the healthy count and,
    when some were filtered out, the unhealthy addresses; with zone awareness
    the message asks for replicas across different availability zones, a
    wording distinct from the message without zone awareness. *)
Theorem quorum_error_message (w : world) (instances : list InstanceDesc) (op : Operation)
    (replicationFactor : Z) (heartbeatTimeout : Duration) :
  in_int64 replicationFactor ->
  Z.of_nat (List.length instances) <= max_int ->
  let h := fun i => IsHealthy i op heartbeatTimeout (time_Now w) in
  let len := Z.of_nat (List.length (filter h instances)) in
  let unhealthy := map Addr (filter (fun i => negb (h i)) instances) in
  let minSuccess := Z.max replicationFactor len / 2 + 1 in
  len < minSuccess ->
  let unhealthyStr := if Nat.ltb 0 (List.length unhealthy)
    then (" - unhealthy instances: " ++ Join unhealthy ",")%string else ""%string in
  let c zone := Filter_default IsHealthy w instances op replicationFactor heartbeatTimeout
                  zone in
  err (c true) = Some (Errorf ("at least " ++ itoa minSuccess
    ++ " live replicas required across different availability zones, could only find "
    ++ itoa len ++ unhealthyStr)) /\
  err (c false) = Some (Errorf ("at least " ++ itoa minSuccess
    ++ " live replicas required, could only find " ++ itoa len ++ unhealthyStr)) /\
  err (c true) <> err (c false).
Proof.
  intros Hrf Hl. cbv zeta. intros Hlt.
  destruct (Filter_default_cases Operation IsHealthy w instances op replicationFactor
              heartbeatTimeout true Hrf Hl) as (_ & Ht & _).
  destruct (Filter_default_cases Operation IsHealthy w instances op replicationFactor
              heartbeatTimeout false Hrf Hl) as (_ & Hf & _).
  destruct (Ht Hlt) as (_ & _ & ->). destruct (Hf Hlt) as (_ & _ & ->).
  repeat split. intros E. injection E as E.
  apply append_cancel_l in E. congruence.
Qed.

(** C10: for every replication factor, also zero or negative, the quorum
    threshold [minSuccess] is at least 1, so a successful quorum call returns
    at least one instance and [maxFailures < len(healthy)]. *)
Theorem quorum_min_success_pos (w : world) (instances : list InstanceDesc) (op : Operation)
    (replicationFactor : Z) (heartbeatTimeout : Duration) (zoneAwarenessEnabled : bool) :
  in_int64 replicationFactor ->
  Z.of_nat (List.length instances) <= max_int ->
  let len := Z.of_nat (List.length
               (filter (fun i => IsHealthy i op heartbeatTimeout (time_Now w)) instances)) in
  let c := Filter_default IsHealthy w instances op replicationFactor heartbeatTimeout
             zoneAwarenessEnabled in
  1 <= wrap64 (Z.quot (if len >? replicationFactor then len else replicationFactor) 2 + 1) /\
  (err c = None ->
     (0 < List.length (healthy c))%nat /\ maxFailures c < Z.of_nat (List.length (healthy c))).
Proof.
  intros Hrf Hl. cbv zeta.
  destruct (Filter_default_cases Operation IsHealthy w instances op replicationFactor
              heartbeatTimeout zoneAwarenessEnabled Hrf Hl) as (Hr & Hfail & Hok).
  cbv zeta in Hr, Hfail, Hok.
  set (len := Z.of_nat (List.length (filter _ instances))) in *.
  rewrite minSuccess_eq by (lia || exact Hrf).
  assert (0 <= Z.max replicationFactor len / 2) by (apply Z.div_pos; lia).
  split; [lia|]. intros Herr.
  destruct (Z.lt_ge_cases len (Z.max replicationFactor len / 2 + 1)) as [Hlt|Hge].
  - destruct (Hfail Hlt) as (_ & _ & E). congruence.
  - destruct (Hok ltac:(lia)) as (-> & -> & _). fold len. lia.
Qed.

(** C5 (as the code has it): [Filter] reads the clock itself, once, with
    [time.Now()]; apart from that reading neither strategy has any state:
    two calls with the same arguments that read the same time give the same
    result. *)
Theorem filter_deterministic_given_clock (w1 w2 : world) (instances : list InstanceDesc)
    (op : Operation) (replicationFactor : Z) (heartbeatTimeout : Duration)
    (zoneAwarenessEnabled : bool) :
  time_Now w1 = time_Now w2 ->
  Filter_default IsHealthy w1 instances op replicationFactor heartbeatTimeout
    zoneAwarenessEnabled =
  Filter_default IsHealthy w2 instances op replicationFactor heartbeatTimeout
    zoneAwarenessEnabled /\
  Filter_ignore IsHealthy w1 instances op replicationFactor heartbeatTimeout
    zoneAwarenessEnabled =
  Filter_ignore IsHealthy w2 instances op replicationFactor heartbeatTimeout
    zoneAwarenessEnabled.
Proof. intros E. unfold Filter_default, Filter_ignore. rewrite E. split; reflexivity. Qed.

(** C8 (as the code has it): both strategies return their error as the
    third result, next to a nil instance list and [maxFailures = 0]; the
    error is a [fmt.Errorf] value whose only content, its message [Error()],
    is the rendered text: the quorum one embeds [minSuccess], the healthy
    count, the zone-aware wording and the comma-joined unhealthy addresses,
    the best-effort one the comma-joined (all unhealthy) input addresses. *)
Theorem errors_are_plain_values (w : world) (instances : list InstanceDesc)
    (op : Operation) (replicationFactor : Z) (heartbeatTimeout : Duration)
    (zoneAwarenessEnabled : bool) :
  in_int64 replicationFactor ->
  Z.of_nat (List.length instances) <= max_int ->
  let h := fun i => IsHealthy i op heartbeatTimeout (time_Now w) in
  let len := Z.of_nat (List.length (filter h instances)) in
  let unhealthy := map Addr (filter (fun i => negb (h i)) instances) in
  let minSuccess := Z.max replicationFactor len / 2 + 1 in
  let unhealthyStr := if Nat.ltb 0 (List.length unhealthy)
    then (" - unhealthy instances: " ++ Join unhealthy ",")%string else ""%string in
  let cd := Filter_default IsHealthy w instances op replicationFactor heartbeatTimeout
              zoneAwarenessEnabled in
  let ci := Filter_ignore IsHealthy w instances op replicationFactor heartbeatTimeout
              zoneAwarenessEnabled in
  (forall e, err cd = Some e ->
     healthy cd = [] /\ maxFailures cd = 0 /\
     Error e = (if zoneAwarenessEnabled
       then "at least " ++ itoa minSuccess
         ++ " live replicas required across different availability zones, could only find "
         ++ itoa len ++ unhealthyStr
       else "at least " ++ itoa minSuccess
         ++ " live replicas required, could only find " ++ itoa len ++ unhealthyStr)%string) /\
  (forall e, err ci = Some e ->
     healthy ci = [] /\ maxFailures ci = 0 /\
     Error e = ("at least 1 healthy replica required, could only find 0"
       ++ (if Nat.ltb 0 (List.length instances)
           then " - unhealthy instances: " ++ Join (map Addr instances) "," else ""))%string).
Proof.
  intros Hrf Hl. cbv zeta.
  destruct (Filter_default_cases Operation IsHealthy w instances op replicationFactor
              heartbeatTimeout zoneAwarenessEnabled Hrf Hl) as (Hr & Hfail & Hok).
  destruct (Filter_ignore_cases Operation IsHealthy w instances op replicationFactor
              heartbeatTimeout zoneAwarenessEnabled Hl) as (Hnone & Hsome).
  cbv zeta in Hr, Hfail, Hok, Hnone, Hsome.
  set (H := filter (fun i => IsHealthy i op heartbeatTimeout (time_Now w)) instances) in *.
  split; intros e Herr.
  - destruct (Z.lt_ge_cases (Z.of_nat (List.length H))
                (Z.max replicationFactor (Z.of_nat (List.length H)) / 2 + 1)) as [Hlt|Hge].
    + destruct (Hfail Hlt) as (-> & -> & E). rewrite E in Herr. injection Herr as <-.
      repeat split. destruct zoneAwarenessEnabled; reflexivity.
    + destruct (Hok ltac:(lia)) as (_ & _ & E). congruence.
  - assert (Hdec : H = [] \/ H <> []) by (destruct H; [left | right]; congruence).
    destruct Hdec as [E0|E0].
    + destruct (Hnone E0) as (-> & -> & E). rewrite E in Herr. injection Herr as <-.
      pose proof E0 as E1. unfold H in E1.
      rewrite (filter_none_negb _ _ E1), length_map. repeat split.
    + destruct (Hsome E0) as (_ & _ & E). congruence.
Qed.

(** C9 (as the code has it): both strategies filter in place, as the doc
    comment warns ("The instances argument may be overwritten"): the
    caller's array keeps its length, its first [len(H)] elements become the
    healthy instances [H], and a successful result is that prefix of the
    caller's array. *)
Theorem filter_reuses_input_array (w : world) (instances : list InstanceDesc)
    (op : Operation) (replicationFactor : Z) (heartbeatTimeout : Duration)
    (zoneAwarenessEnabled : bool) :
  let H := filter (fun i => IsHealthy i op heartbeatTimeout (time_Now w)) instances in
  forall c, c = Filter_default IsHealthy w instances op replicationFactor heartbeatTimeout
                  zoneAwarenessEnabled \/
            c = Filter_ignore IsHealthy w instances op replicationFactor heartbeatTimeout
                  zoneAwarenessEnabled ->
  List.length (backing c) = List.length instances /\
  firstn (List.length H) (backing c) = H /\
  (err c = None -> healthy c = firstn (List.length (healthy c)) (backing c)).
Proof.
  cbv zeta. intros c [-> | ->]; [unfold Filter_default | unfold Filter_ignore];
    run_loop; rewrite <- Hpre;
    destruct (_ <? _) || destruct (Nat.eqb _ _); simpl;
    (split; [exact Hlen | split; [apply firstn_length_firstn |]]);
    intros E; try discriminate; symmetry; apply firstn_length_firstn.
Qed.

End Claims.

(** ** Further properties of the strategies *)

Lemma filter_all_true {A} (f : A -> bool) (l : list A) :
  (forall x, In x l -> f x = true) -> filter f l = l.
Proof.
  induction l as [|a l IH]; simpl; intros Hall; auto.
  rewrite Hall by auto. f_equal. apply IH. auto.
Qed.

Lemma filter_idem {A} (f : A -> bool) (l : list A) : filter f (filter f l) = filter f l.
Proof.
  apply filter_all_true. intros x Hx. apply filter_In in Hx. tauto.
Qed.

Lemma firstn_full {A} (n : nat) (l : list A) :
  List.length (firstn n l) = List.length l -> firstn n l = l.
Proof. rewrite length_firstn. intros E. apply firstn_all2. lia. Qed.

Lemma append_nil_r (s : string) : (s ++ "")%string = s.
Proof. induction s as [|c s IH]; simpl; congruence. Qed.

(** quotient and remainder facts for a division by 2 *)
Ltac div2 x :=
  pose proof (Z.div_mod x 2 ltac:(lia)); pose proof (Z.mod_pos_bound x 2 ltac:(lia)).

Section Extras.

Variable Operation : Type.
Variable IsHealthy : InstanceDesc -> Operation -> Duration -> Time -> bool.

(** An empty candidate list makes both strategies fail, whatever the
    replication factor: the quorum strategy needs at least one instance
    ([minSuccess >= 1]) and reports it found 0 without an unhealthy list;
    the best-effort one reports that one healthy replica is required. *)
Theorem empty_instances_fail (w : world) (op : Operation) (replicationFactor : Z)
    (heartbeatTimeout : Duration) (zoneAwarenessEnabled : bool) :
  in_int64 replicationFactor ->
  let minSuccess := Z.max replicationFactor 0 / 2 + 1 in
  let cd := Filter_default IsHealthy w [] op replicationFactor heartbeatTimeout
              zoneAwarenessEnabled in
  let ci := Filter_ignore IsHealthy w [] op replicationFactor heartbeatTimeout
              zoneAwarenessEnabled in
  healthy cd = [] /\ maxFailures cd = 0 /\
  err cd = Some (if zoneAwarenessEnabled
    then Errorf ("at least " ++ itoa minSuccess
           ++ " live replicas required across different availability zones, could only find 0")
    else Errorf ("at least " ++ itoa minSuccess
           ++ " live replicas required, could only find 0")) /\
  healthy ci = [] /\ maxFailures ci = 0 /\
  err ci = Some (Errorf "at least 1 healthy replica required, could only find 0").
Proof.
  intros Hrf. cbv zeta.
  destruct (Filter_default_cases Operation IsHealthy w [] op replicationFactor
              heartbeatTimeout zoneAwarenessEnabled Hrf ltac:(simpl; unfold max_int; lia))
    as (_ & Hfail & _).
  destruct (Filter_ignore_cases Operation IsHealthy w [] op replicationFactor
              heartbeatTimeout zoneAwarenessEnabled ltac:(simpl; unfold max_int; lia))
    as (Hnone & _).
  cbv zeta in Hfail, Hnone. cbn [filter map List.length Nat.ltb Nat.leb] in Hfail, Hnone.
  assert (0 <= Z.max replicationFactor 0 / 2) by (apply Z.div_pos; lia).
  destruct (Hfail ltac:(lia)) as (-> & -> & ->).
  destruct (Hnone eq_refl) as (-> & -> & ->).
  repeat split; rewrite ?append_nil_r; reflexivity.
Qed.

(** when every candidate is healthy, both strategies leave the caller's
    array as it was *)
Lemma backing_all_healthy (w : world) (instances : list InstanceDesc) (op : Operation)
    (replicationFactor : Z) (heartbeatTimeout : Duration) (zoneAwarenessEnabled : bool) :
  (forall i, In i instances -> IsHealthy i op heartbeatTimeout (time_Now w) = true) ->
  backing (Filter_default IsHealthy w instances op replicationFactor heartbeatTimeout
             zoneAwarenessEnabled) = instances /\
  backing (Filter_ignore IsHealthy w instances op replicationFactor heartbeatTimeout
             zoneAwarenessEnabled) = instances.
Proof.
  intros Hall.
  assert (Hf : filter (fun i => IsHealthy i op heartbeatTimeout (time_Now w)) instances
               = instances) by (apply filter_all_true; exact Hall).
  split; [unfold Filter_default | unfold Filter_ignore]; run_loop;
    rewrite Hf in Hpre;
    (assert (arr = instances) as ->
       by (rewrite <- Hpre; symmetry; apply firstn_full; rewrite Hpre; congruence));
    destruct (_ <? _) || destruct (Nat.eqb _ _); reflexivity.
Qed.

(** If every candidate is healthy, neither strategy touches the caller's
    array, and a successful call returns the candidate list itself. *)
Theorem all_healthy_untouched (w : world) (instances : list InstanceDesc) (op : Operation)
    (replicationFactor : Z) (heartbeatTimeout : Duration) (zoneAwarenessEnabled : bool) :
  (forall i, In i instances -> IsHealthy i op heartbeatTimeout (time_Now w) = true) ->
  forall c, c = Filter_default IsHealthy w instances op replicationFactor heartbeatTimeout
                  zoneAwarenessEnabled \/
            c = Filter_ignore IsHealthy w instances op replicationFactor heartbeatTimeout
                  zoneAwarenessEnabled ->
  backing c = instances /\ (err c = None -> healthy c = instances).
Proof.
  intros Hall c Hc.
  destruct (backing_all_healthy w instances op replicationFactor heartbeatTimeout
              zoneAwarenessEnabled Hall) as (Bd & Bi).
  assert (Hf : filter (fun i => IsHealthy i op heartbeatTimeout (time_Now w)) instances
               = instances) by (apply filter_all_true; exact Hall).
  destruct Hc as [-> | ->]; split; auto; [unfold Filter_default | unfold Filter_ignore];
    run_loop; rewrite Hf;
    destruct (_ <? _) || destruct (Nat.eqb _ _); simpl; congruence.
Qed.

(** Filtering again is a no-op: calling the quorum strategy a second time,
    at the same time, on the healthy list a successful call returned gives
    back that list, the same [maxFailures], no error, and leaves it intact. *)
Theorem refilter_default (w : world) (instances : list InstanceDesc) (op : Operation)
    (replicationFactor : Z) (heartbeatTimeout : Duration) (zoneAwarenessEnabled : bool) :
  in_int64 replicationFactor ->
  Z.of_nat (List.length instances) <= max_int ->
  let c1 := Filter_default IsHealthy w instances op replicationFactor heartbeatTimeout
              zoneAwarenessEnabled in
  err c1 = None ->
  Filter_default IsHealthy w (healthy c1) op replicationFactor heartbeatTimeout
    zoneAwarenessEnabled = mkCall (healthy c1) (healthy c1) (maxFailures c1) None.
Proof.
  intros Hrf Hl. cbv zeta. intros Herr.
  destruct (Filter_default_cases Operation IsHealthy w instances op replicationFactor
              heartbeatTimeout zoneAwarenessEnabled Hrf Hl) as (Hr & Hfail & Hok).
  cbv zeta in Hr, Hfail, Hok.
  set (H := filter (fun i => IsHealthy i op heartbeatTimeout (time_Now w)) instances) in *.
  assert (0 <= Z.max replicationFactor (Z.of_nat (List.length H)) / 2)
    by (apply Z.div_pos; lia).
  destruct (Z.lt_ge_cases (Z.of_nat (List.length H))
              (Z.max replicationFactor (Z.of_nat (List.length H)) / 2 + 1)) as [Hlt|Hge].
  { destruct (Hfail Hlt) as (_ & _ & E). congruence. }
  destruct (Hok ltac:(lia)) as (-> & -> & _).
  assert (HH : filter (fun i => IsHealthy i op heartbeatTimeout (time_Now w)) H = H)
    by apply filter_idem.
  assert (Hall : forall i, In i H -> IsHealthy i op heartbeatTimeout (time_Now w) = true)
    by (intros i Hi; unfold H in Hi; apply filter_In in Hi; tauto).
  destruct (Filter_default_cases Operation IsHealthy w H op replicationFactor
              heartbeatTimeout zoneAwarenessEnabled Hrf ltac:(lia)) as (_ & _ & Hok2).
  cbv zeta in Hok2. rewrite HH in Hok2.
  destruct (Hok2 ltac:(lia)) as (E1 & E2 & E3).
  destruct (backing_all_healthy w H op replicationFactor heartbeatTimeout
              zoneAwarenessEnabled Hall) as (E4 & _).
  destruct (Filter_default IsHealthy w H op replicationFactor heartbeatTimeout
              zoneAwarenessEnabled); simpl in *; subst; reflexivity.
Qed.

(** The same for the best-effort strategy. *)
Theorem refilter_ignore (w : world) (instances : list InstanceDesc) (op : Operation)
    (replicationFactor : Z) (heartbeatTimeout : Duration) (zoneAwarenessEnabled : bool) :
  Z.of_nat (List.length instances) <= max_int ->
  let c1 := Filter_ignore IsHealthy w instances op replicationFactor heartbeatTimeout
              zoneAwarenessEnabled in
  err c1 = None ->
  Filter_ignore IsHealthy w (healthy c1) op replicationFactor heartbeatTimeout
    zoneAwarenessEnabled = mkCall (healthy c1) (healthy c1) (maxFailures c1) None.
Proof.
  intros Hl. cbv zeta. intros Herr.
  destruct (Filter_ignore_cases Operation IsHealthy w instances op replicationFactor
              heartbeatTimeout zoneAwarenessEnabled Hl) as (Hnone & Hsome).
  cbv zeta in Hnone, Hsome.
  set (H := filter (fun i => IsHealthy i op heartbeatTimeout (time_Now w)) instances) in *.
  assert (HH' : (List.length H <= List.length instances)%nat) by apply length_filter_le.
  assert (Hne : H <> []).
  { intros E. destruct (Hnone E) as (_ & _ & E'). congruence. }
  destruct (Hsome Hne) as (-> & -> & _).
  assert (HH : filter (fun i => IsHealthy i op heartbeatTimeout (time_Now w)) H = H)
    by apply filter_idem.
  assert (Hall : forall i, In i H -> IsHealthy i op heartbeatTimeout (time_Now w) = true)
    by (intros i Hi; unfold H in Hi; apply filter_In in Hi; tauto).
  destruct (Filter_ignore_cases Operation IsHealthy w H op replicationFactor
              heartbeatTimeout zoneAwarenessEnabled ltac:(lia)) as (_ & Hsome2).
  cbv zeta in Hsome2. rewrite HH in Hsome2.
  destruct (Hsome2 Hne) as (E1 & E2 & E3).
  destruct (backing_all_healthy w H op replicationFactor heartbeatTimeout
              zoneAwarenessEnabled Hall) as (_ & E4).
  destruct (Filter_ignore IsHealthy w H op replicationFactor heartbeatTimeout
              zoneAwarenessEnabled); simpl in *; subst; reflexivity.
Qed.

(** The best-effort strategy is never stricter than the quorum one: when
    the quorum strategy succeeds, the best-effort strategy succeeds on the
    same call with the same healthy list and tolerates at least as many
    failures. *)
Theorem quorum_success_implies_ignore_success (w : world) (instances : list InstanceDesc)
    (op : Operation) (replicationFactor : Z) (heartbeatTimeout : Duration)
    (zoneAwarenessEnabled : bool) :
  in_int64 replicationFactor ->
  Z.of_nat (List.length instances) <= max_int ->
  let cd := Filter_default IsHealthy w instances op replicationFactor heartbeatTimeout
              zoneAwarenessEnabled in
  let ci := Filter_ignore IsHealthy w instances op replicationFactor heartbeatTimeout
              zoneAwarenessEnabled in
  err cd = None ->
  err ci = None /\ healthy ci = healthy cd /\ maxFailures cd <= maxFailures ci.
Proof.
  intros Hrf Hl. cbv zeta. intros Herr.
  destruct (Filter_default_cases Operation IsHealthy w instances op replicationFactor
              heartbeatTimeout zoneAwarenessEnabled Hrf Hl) as (Hr & Hfail & Hok).
  destruct (Filter_ignore_cases Operation IsHealthy w instances op replicationFactor
              heartbeatTimeout zoneAwarenessEnabled Hl) as (_ & Hsome).
  cbv zeta in Hr, Hfail, Hok, Hsome.
  set (H := filter (fun i => IsHealthy i op heartbeatTimeout (time_Now w)) instances) in *.
  assert (0 <= Z.max replicationFactor (Z.of_nat (List.length H)) / 2)
    by (apply Z.div_pos; lia).
  destruct (Z.lt_ge_cases (Z.of_nat (List.length H))
              (Z.max replicationFactor (Z.of_nat (List.length H)) / 2 + 1)) as [Hlt|Hge].
  { destruct (Hfail Hlt) as (_ & _ & E). congruence. }
  destruct (Hok ltac:(lia)) as (-> & -> & _).
  assert (Hne : H <> [])
    by (intros E; assert (List.length H = 0%nat) by (rewrite E; reflexivity); lia).
  destruct (Hsome Hne) as (-> & -> & ->). repeat split. lia.
Qed.

(** The zone-awareness flag only changes the error message: the healthy
    list, [maxFailures], the effect on the caller's array and whether the
    quorum call fails are the same with and without it. *)
Theorem zone_flag_only_changes_message (w : world) (instances : list InstanceDesc)
    (op : Operation) (replicationFactor : Z) (heartbeatTimeout : Duration) :
  let c zone := Filter_default IsHealthy w instances op replicationFactor heartbeatTimeout
                  zone in
  backing (c true) = backing (c false) /\ healthy (c true) = healthy (c false) /\
  maxFailures (c true) = maxFailures (c false) /\
  (err (c true) = None <-> err (c false) = None).
Proof.
  cbv zeta. unfold Filter_default. run_loop.
  destruct (_ <? _); simpl; repeat split; intros; congruence.
Qed.

(** Lowering the replication factor never turns a successful quorum call
    into a failing one, and never lowers [maxFailures]. *)
Theorem quorum_monotone_in_rf (w : world) (instances : list InstanceDesc) (op : Operation)
    (rf rf' : Z) (heartbeatTimeout : Duration) (zoneAwarenessEnabled : bool) :
  in_int64 rf -> in_int64 rf' -> rf' <= rf ->
  Z.of_nat (List.length instances) <= max_int ->
  let c := Filter_default IsHealthy w instances op rf heartbeatTimeout zoneAwarenessEnabled in
  let c' := Filter_default IsHealthy w instances op rf' heartbeatTimeout zoneAwarenessEnabled in
  err c = None ->
  err c' = None /\ healthy c' = healthy c /\ maxFailures c <= maxFailures c'.
Proof.
  intros Hrf Hrf' Hle Hl. cbv zeta. intros Herr.
  destruct (Filter_default_cases Operation IsHealthy w instances op rf
              heartbeatTimeout zoneAwarenessEnabled Hrf Hl) as (Hr & Hfail & Hok).
  destruct (Filter_default_cases Operation IsHealthy w instances op rf'
              heartbeatTimeout zoneAwarenessEnabled Hrf' Hl) as (_ & _ & Hok').
  cbv zeta in Hr, Hfail, Hok, Hok'.
  set (len := Z.of_nat (List.length (filter _ instances))) in *.
  assert (0 <= Z.max rf len / 2) by (apply Z.div_pos; lia).
  assert (Z.max rf' len / 2 <= Z.max rf len / 2) by (apply Z.div_le_mono; lia).
  destruct (Z.lt_ge_cases len (Z.max rf len / 2 + 1)) as [Hlt|Hge].
  { destruct (Hfail Hlt) as (_ & _ & E). congruence. }
  destruct (Hok ltac:(lia)) as (-> & -> & _).
  destruct (Hok' ltac:(lia)) as (-> & -> & ->). repeat split. lia.
Qed.

(** Scale-up: when at least one and at least [replicationFactor] instances
    are healthy, the quorum call succeeds, the threshold is taken from the
    healthy count, and [maxFailures = (len(healthy) - 1) / 2]. *)
Theorem quorum_scale_up (w : world) (instances : list InstanceDesc) (op : Operation)
    (replicationFactor : Z) (heartbeatTimeout : Duration) (zoneAwarenessEnabled : bool) :
  in_int64 replicationFactor ->
  Z.of_nat (List.length instances) <= max_int ->
  let H := filter (fun i => IsHealthy i op heartbeatTimeout (time_Now w)) instances in
  let len := Z.of_nat (List.length H) in
  1 <= len -> replicationFactor <= len ->
  let c := Filter_default IsHealthy w instances op replicationFactor heartbeatTimeout
             zoneAwarenessEnabled in
  err c = None /\ healthy c = H /\ maxFailures c = (len - 1) / 2.
Proof.
  intros Hrf Hl. cbv zeta. intros H1 Hle.
  destruct (Filter_default_cases Operation IsHealthy w instances op replicationFactor
              heartbeatTimeout zoneAwarenessEnabled Hrf Hl) as (Hr & _ & Hok).
  cbv zeta in Hr, Hok.
  set (len := Z.of_nat (List.length (filter _ instances))) in *.
  rewrite Z.max_r in Hok by lia.
  div2 len. div2 (len - 1).
  destruct (Hok ltac:(lia)) as (-> & -> & ->). repeat split. lia.
Qed.

(** On success the instances that must answer, [len(healthy) - maxFailures],
    are a strict majority of the effective factor [max(RF, len(healthy))],
    and fewer than half of the returned instances may fail. *)
Theorem quorum_strict_majority (w : world) (instances : list InstanceDesc) (op : Operation)
    (replicationFactor : Z) (heartbeatTimeout : Duration) (zoneAwarenessEnabled : bool) :
  in_int64 replicationFactor ->
  Z.of_nat (List.length instances) <= max_int ->
  let c := Filter_default IsHealthy w instances op replicationFactor heartbeatTimeout
             zoneAwarenessEnabled in
  let len := Z.of_nat (List.length (healthy c)) in
  err c = None ->
  Z.max replicationFactor len < 2 * (len - maxFailures c) /\ 2 * maxFailures c < len.
Proof.
  intros Hrf Hl. cbv zeta. intros Herr.
  destruct (Filter_default_cases Operation IsHealthy w instances op replicationFactor
              heartbeatTimeout zoneAwarenessEnabled Hrf Hl) as (Hr & Hfail & Hok).
  cbv zeta in Hr, Hfail, Hok.
  set (H := filter (fun i => IsHealthy i op heartbeatTimeout (time_Now w)) instances) in *.
  assert (0 <= Z.max replicationFactor (Z.of_nat (List.length H)) / 2)
    by (apply Z.div_pos; lia).
  destruct (Z.lt_ge_cases (Z.of_nat (List.length H))
              (Z.max replicationFactor (Z.of_nat (List.length H)) / 2 + 1)) as [Hlt|Hge].
  { destruct (Hfail Hlt) as (_ & _ & E). congruence. }
  destruct (Hok ltac:(lia)) as (-> & -> & _).
  div2 (Z.max replicationFactor (Z.of_nat (List.length H))). lia.
Qed.

(** Without over-replication ([len(healthy) <= replicationFactor]) the
    quorum call succeeds exactly when the healthy instances are a strict
    majority of the replication factor. *)
Theorem quorum_majority_of_rf (w : world) (instances : list InstanceDesc) (op : Operation)
    (replicationFactor : Z) (heartbeatTimeout : Duration) (zoneAwarenessEnabled : bool) :
  in_int64 replicationFactor ->
  Z.of_nat (List.length instances) <= max_int ->
  let len := Z.of_nat (List.length
               (filter (fun i => IsHealthy i op heartbeatTimeout (time_Now w)) instances)) in
  len <= replicationFactor ->
  let c := Filter_default IsHealthy w instances op replicationFactor heartbeatTimeout
             zoneAwarenessEnabled in
  err c = None <-> replicationFactor < 2 * len.
Proof.
  intros Hrf Hl. cbv zeta. intros Hle.
  destruct (Filter_default_cases Operation IsHealthy w instances op replicationFactor
              heartbeatTimeout zoneAwarenessEnabled Hrf Hl) as (Hr & Hfail & Hok).
  cbv zeta in Hr, Hfail, Hok.
  set (len := Z.of_nat (List.length (filter _ instances))) in *.
  rewrite Z.max_l in Hfail, Hok by lia.
  div2 replicationFactor.
  destruct (Z.lt_ge_cases len (replicationFactor / 2 + 1)) as [Hlt|Hge].
  - destruct (Hfail Hlt) as (_ & _ & ->). split; [discriminate | lia].
  - destruct (Hok Hge) as (_ & _ & ->). split; [lia | reflexivity].
Qed.

End Extras.

(** ** Concrete calls *)

(** heartbeat timeout of 10 ns; the clock reads 100 *)
Definition world_now : world := mkWorld 100.
Definition world_later : world := mkWorld 200.

Definition inst_a : InstanceDesc := mkInstanceDesc "ingester-1" 95 ACTIVE "zone-a".
Definition inst_b : InstanceDesc := mkInstanceDesc "ingester-2" 95 ACTIVE "zone-b".
Definition inst_c : InstanceDesc := mkInstanceDesc "ingester-3" 0 ACTIVE "zone-c".
Definition inst_d : InstanceDesc := mkInstanceDesc "ingester-4" 0 ACTIVE "zone-a".

(** an address with a comma, and the two addresses it reads as *)
Definition inst_ab : InstanceDesc := mkInstanceDesc "a,b" 0 ACTIVE "".
Definition inst_a' : InstanceDesc := mkInstanceDesc "a" 0 ACTIVE "".
Definition inst_b' : InstanceDesc := mkInstanceDesc "b" 0 ACTIVE "".

Ltac concrete :=
  unfold in_int64, min_int, max_int; vm_compute;
  repeat split; try reflexivity; try discriminate; try (intros ?; discriminate).

(** C5: the result is not a function of the caller's arguments: two calls
    with the same arguments, made at different clock readings, differ. *)
Lemma clock_read_inside_filter :
  ~ (forall (w1 w2 : world) instances op replicationFactor heartbeatTimeout zone,
       Filter_default spec_IsHealthy w1 instances op replicationFactor heartbeatTimeout zone =
       Filter_default spec_IsHealthy w2 instances op replicationFactor heartbeatTimeout zone).
Proof.
  intros Hall.
  specialize (Hall world_now world_later [inst_a] WriteOp 1 10 false).
  vm_compute in Hall. discriminate.
Qed.

(** C8: the unhealthy addresses cannot be read back from the error: a call
    with the one address "a,b" and a call with the addresses "a" and "b"
    return the same error value. *)
Lemma unhealthy_addrs_not_recoverable :
  ~ (exists decode : error -> list string,
       forall (w : world) instances op replicationFactor heartbeatTimeout zone e,
         err (Filter_ignore spec_IsHealthy w instances op replicationFactor
                heartbeatTimeout zone) = Some e ->
         decode e = map Addr (filter (fun i => negb (spec_IsHealthy i op heartbeatTimeout
                                                       (time_Now w))) instances)).
Proof.
  intros (decode & Hdec).
  pose proof (Hdec world_now [inst_ab] WriteOp 3 10 false
                (Errorf "at least 1 healthy replica required, could only find 0 - unhealthy instances: a,b")
                ltac:(vm_compute; reflexivity)) as H1.
  pose proof (Hdec world_now [inst_a'; inst_b'] WriteOp 3 10 false
                (Errorf "at least 1 healthy replica required, could only find 0 - unhealthy instances: a,b")
                ltac:(vm_compute; reflexivity)) as H2.
  rewrite H1 in H2. vm_compute in H2. discriminate.
Qed.

(** C9: the caller's array [inst_c; inst_a] (with [inst_c] stale) holds
    [inst_a; inst_a] after the call. *)
Lemma filter_overwrites_input :
  backing (Filter_default spec_IsHealthy world_now [inst_c; inst_a] WriteOp 3 10 false)
    = [inst_a; inst_a] /\
  [inst_a; inst_a] <> [inst_c; inst_a].
Proof. split; [vm_compute; reflexivity | discriminate]. Qed.

(** ** Witnesses *)

(** spec scenario 2: three candidates, one stale, RF = 3 *)
Lemma quorum_success_witness :
  let c := Filter_default spec_IsHealthy world_now [inst_a; inst_c; inst_b] WriteOp 3 10 false in
  healthy c = [inst_a; inst_b] /\ maxFailures c = 0 /\ err c = None.
Proof.
  exact (quorum_success SpecOperation spec_IsHealthy world_now [inst_a; inst_c; inst_b]
           WriteOp 3 10 false ltac:(concrete) ltac:(concrete) ltac:(concrete)).
Defined.

(** spec scenario 3: three candidates, two stale, RF = 3 *)
Lemma quorum_failure_witness :
  let c := Filter_default spec_IsHealthy world_now [inst_a; inst_c; inst_d] WriteOp 3 10 false in
  err c <> None /\ healthy c = [] /\ maxFailures c = 0.
Proof.
  exact (quorum_failure SpecOperation spec_IsHealthy world_now [inst_a; inst_c; inst_d]
           WriteOp 3 10 false ltac:(concrete) ltac:(concrete) ltac:(concrete)).
Defined.

(** spec scenario 5: best effort, all four candidates stale *)
Lemma ignore_fails_iff_none_healthy_witness :
  let c := Filter_ignore spec_IsHealthy world_now [inst_c; inst_d] WriteOp 3 10 false in
  (err c <> None <-> @nil InstanceDesc = []) /\
  ([] = @nil InstanceDesc ->
     err c = Some (Errorf "at least 1 healthy replica required, could only find 0 - unhealthy instances: ingester-3,ingester-4")) /\
  ([] <> @nil InstanceDesc -> healthy c = [] /\ maxFailures c = -1 /\ err c = None).
Proof.
  exact (ignore_fails_iff_none_healthy SpecOperation spec_IsHealthy world_now [inst_c; inst_d]
           WriteOp 3 10 false ltac:(concrete)).
Defined.

Lemma healthy_is_filter_witness :
  let c := Filter_ignore spec_IsHealthy world_now [inst_c; inst_a; inst_d] WriteOp 3 10 false in
  (err c = None /\ healthy c = [inst_a]) \/ (err c <> None /\ healthy c = []).
Proof.
  exact (healthy_is_filter SpecOperation spec_IsHealthy world_now [inst_c; inst_a; inst_d]
           WriteOp 3 10 false _ (or_intror eq_refl)).
Defined.

(** spec scenario 1: five healthy candidates, RF = 3 *)
Lemma max_failures_bounds_witness :
  let c := Filter_default spec_IsHealthy world_now [inst_a; inst_b; inst_a; inst_b; inst_a]
             WriteOp 3 10 false in
  0 <= maxFailures c < Z.of_nat (List.length (healthy c)).
Proof.
  exact (max_failures_bounds SpecOperation spec_IsHealthy world_now
           [inst_a; inst_b; inst_a; inst_b; inst_a] WriteOp 3 10 false
           ltac:(concrete) ltac:(concrete) ltac:(concrete) _ (or_introl eq_refl)
           ltac:(concrete)).
Defined.

(** spec scenario 6: zone-aware and plain messages of scenario 3 *)
Lemma quorum_error_message_witness :
  let c zone := Filter_default spec_IsHealthy world_now [inst_a; inst_c; inst_d] WriteOp 3 10
                  zone in
  err (c true) = Some (Errorf "at least 2 live replicas required across different availability zones, could only find 1 - unhealthy instances: ingester-3,ingester-4") /\
  err (c false) = Some (Errorf "at least 2 live replicas required, could only find 1 - unhealthy instances: ingester-3,ingester-4") /\
  err (c true) <> err (c false).
Proof.
  exact (quorum_error_message SpecOperation spec_IsHealthy world_now [inst_a; inst_c; inst_d]
           WriteOp 3 10 ltac:(concrete) ltac:(concrete) ltac:(concrete)).
Defined.

(** a negative replication factor *)
Lemma quorum_min_success_pos_witness :
  let c := Filter_default spec_IsHealthy world_now [inst_a; inst_c] WriteOp (-5) 10 false in
  1 <= wrap64 (Z.quot (if 1 >? -5 then 1 else -5) 2 + 1) /\
  (err c = None ->
     (0 < List.length (healthy c))%nat /\ maxFailures c < Z.of_nat (List.length (healthy c))).
Proof.
  exact (quorum_min_success_pos SpecOperation spec_IsHealthy world_now [inst_a; inst_c]
           WriteOp (-5) 10 false ltac:(concrete) ltac:(concrete)).
Defined.

Lemma filter_deterministic_given_clock_witness :
  Filter_default spec_IsHealthy (mkWorld 100) [inst_a; inst_c] WriteOp 3 10 true =
  Filter_default spec_IsHealthy world_now [inst_a; inst_c] WriteOp 3 10 true /\
  Filter_ignore spec_IsHealthy (mkWorld 100) [inst_a; inst_c] WriteOp 3 10 true =
  Filter_ignore spec_IsHealthy world_now [inst_a; inst_c] WriteOp 3 10 true.
Proof.
  exact (filter_deterministic_given_clock SpecOperation spec_IsHealthy (mkWorld 100) world_now
           [inst_a; inst_c] WriteOp 3 10 true eq_refl).
Defined.

Lemma errors_are_plain_values_witness :
  let cd := Filter_default spec_IsHealthy world_now [inst_a; inst_c; inst_d] WriteOp 3 10 true in
  let ci := Filter_ignore spec_IsHealthy world_now [inst_c; inst_d] WriteOp 3 10 true in
  (forall e, err cd = Some e ->
     healthy cd = [] /\ maxFailures cd = 0 /\
     Error e = "at least 2 live replicas required across different availability zones, could only find 1 - unhealthy instances: ingester-3,ingester-4"%string) /\
  (forall e, err ci = Some e ->
     healthy ci = [] /\ maxFailures ci = 0 /\
     Error e = "at least 1 healthy replica required, could only find 0 - unhealthy instances: ingester-3,ingester-4"%string).
Proof.
  split.
  - exact (proj1 (errors_are_plain_values SpecOperation spec_IsHealthy world_now
                    [inst_a; inst_c; inst_d] WriteOp 3 10 true ltac:(concrete) ltac:(concrete))).
  - exact (proj2 (errors_are_plain_values SpecOperation spec_IsHealthy world_now
                    [inst_c; inst_d] WriteOp 3 10 true ltac:(concrete) ltac:(concrete))).
Defined.

Lemma filter_reuses_input_array_witness :
  let c := Filter_default spec_IsHealthy world_now [inst_c; inst_a] WriteOp 1 10 false in
  List.length (backing c) = 2%nat /\ firstn 1 (backing c) = [inst_a] /\
  (err c = None -> healthy c = firstn (List.length (healthy c)) (backing c)).
Proof.
  exact (filter_reuses_input_array SpecOperation spec_IsHealthy world_now [inst_c; inst_a]
           WriteOp 1 10 false _ (or_introl eq_refl)).
Defined.

(** ** Witnesses of the further properties *)

Lemma empty_instances_fail_witness :
  let cd := Filter_default spec_IsHealthy world_now [] WriteOp 3 10 false in
  let ci := Filter_ignore spec_IsHealthy world_now [] WriteOp 3 10 false in
  healthy cd = [] /\ maxFailures cd = 0 /\
  err cd = Some (Errorf "at least 2 live replicas required, could only find 0") /\
  healthy ci = [] /\ maxFailures ci = 0 /\
  err ci = Some (Errorf "at least 1 healthy replica required, could only find 0").
Proof.
  exact (empty_instances_fail SpecOperation spec_IsHealthy world_now WriteOp 3 10 false
           ltac:(concrete)).
Defined.

Lemma all_healthy_untouched_witness :
  let c := Filter_default spec_IsHealthy world_now [inst_a; inst_b] WriteOp 3 10 false in
  backing c = [inst_a; inst_b] /\ (err c = None -> healthy c = [inst_a; inst_b]).
Proof.
  exact (all_healthy_untouched SpecOperation spec_IsHealthy world_now [inst_a; inst_b]
           WriteOp 3 10 false ltac:(intros i Hi; simpl in Hi;
             destruct Hi as [<- | [<- | []]]; reflexivity)
           _ (or_introl eq_refl)).
Defined.

Lemma refilter_default_witness :
  Filter_default spec_IsHealthy world_now [inst_a; inst_b] WriteOp 3 10 false =
  mkCall [inst_a; inst_b] [inst_a; inst_b] 0 None.
Proof.
  exact (refilter_default SpecOperation spec_IsHealthy world_now [inst_a; inst_c; inst_b]
           WriteOp 3 10 false ltac:(concrete) ltac:(concrete) ltac:(concrete)).
Defined.

Lemma refilter_ignore_witness :
  Filter_ignore spec_IsHealthy world_now [inst_a] WriteOp 3 10 false =
  mkCall [inst_a] [inst_a] 0 None.
Proof.
  exact (refilter_ignore SpecOperation spec_IsHealthy world_now [inst_c; inst_a; inst_d]
           WriteOp 3 10 false ltac:(concrete) ltac:(concrete)).
Defined.

Lemma quorum_success_implies_ignore_success_witness :
  let ci := Filter_ignore spec_IsHealthy world_now [inst_a; inst_c; inst_b] WriteOp 3 10 false in
  err ci = None /\ healthy ci = [inst_a; inst_b] /\ 0 <= maxFailures ci.
Proof.
  exact (quorum_success_implies_ignore_success SpecOperation spec_IsHealthy world_now
           [inst_a; inst_c; inst_b] WriteOp 3 10 false
           ltac:(concrete) ltac:(concrete) ltac:(concrete)).
Defined.

Lemma quorum_monotone_in_rf_witness :
  let c' := Filter_default spec_IsHealthy world_now [inst_a; inst_c; inst_b] WriteOp 1 10 false in
  err c' = None /\ healthy c' = [inst_a; inst_b] /\ 0 <= maxFailures c'.
Proof.
  exact (quorum_monotone_in_rf SpecOperation spec_IsHealthy world_now [inst_a; inst_c; inst_b]
           WriteOp 3 1 10 false ltac:(concrete) ltac:(concrete) ltac:(concrete)
           ltac:(concrete) ltac:(concrete)).
Defined.

(** spec scenario 1: five healthy candidates, RF = 3 *)
Lemma quorum_scale_up_witness :
  let c := Filter_default spec_IsHealthy world_now [inst_a; inst_b; inst_a; inst_b; inst_a]
             WriteOp 3 10 false in
  err c = None /\ healthy c = [inst_a; inst_b; inst_a; inst_b; inst_a] /\ maxFailures c = 2.
Proof.
  exact (quorum_scale_up SpecOperation spec_IsHealthy world_now
           [inst_a; inst_b; inst_a; inst_b; inst_a] WriteOp 3 10 false
           ltac:(concrete) ltac:(concrete) ltac:(concrete) ltac:(concrete)).
Defined.

Lemma quorum_strict_majority_witness :
  let c := Filter_default spec_IsHealthy world_now [inst_a; inst_b; inst_a; inst_b; inst_a]
             WriteOp 3 10 false in
  Z.max 3 (Z.of_nat (List.length (healthy c))) < 2 * (Z.of_nat (List.length (healthy c))
    - maxFailures c) /\ 2 * maxFailures c < Z.of_nat (List.length (healthy c)).
Proof.
  exact (quorum_strict_majority SpecOperation spec_IsHealthy world_now
           [inst_a; inst_b; inst_a; inst_b; inst_a] WriteOp 3 10 false
           ltac:(concrete) ltac:(concrete) ltac:(concrete)).
Defined.

Lemma quorum_majority_of_rf_witness :
  err (Filter_default spec_IsHealthy world_now [inst_a; inst_c; inst_b] WriteOp 4 10 false)
    = None <-> 4 < 2 * 2.
Proof.
  exact (quorum_majority_of_rf SpecOperation spec_IsHealthy world_now [inst_a; inst_c; inst_b]
           WriteOp 4 10 false ltac:(concrete) ltac:(concrete) ltac:(concrete)).
Defined.
